(** * Gauge watchers (faucet/watcher.py): sink resolution and text sinks

    A shallow embedding of [watcher_factory] and of the four text loggers
    [GaugePortStateLogger], [GaugePortStatsLogger], [GaugeMeterStatsLogger]
    and [GaugeFlowTableLogger], with the properties the specification
    states about them. *)

From Stdlib Require Import ZArith String Ascii List Bool Lia.
From stdpp Require Import base option strings gmap pretty list.

Local Open Scope Z_scope.
Local Open Scope string_scope.

(** ** Python values and exceptions used by the module *)

Module Py.

(** The exceptions that the modelled code can raise or catch. *)
Inductive exn : Type :=
| KeyError (key : string)
| IndexError
| TypeError
| FileNotFoundError (path : string)
| PermissionError (path : string)
| InvalidConfigError (msg : string).

Inductive result (A : Type) : Type :=
| Ok (a : A)
| Raise (e : exn).
Arguments Ok {A} a.
Arguments Raise {A} e.

Definition bind {A B} (r : result A) (k : A -> result B) : result B :=
  match r with
  | Ok a => k a
  | Raise e => Raise e
  end.

(** [d[k]] on a dict: a missing key raises [KeyError]. *)
Definition getitem {V} (d : gmap string V) (k : string) : result V :=
  match d !! k with
  | Some v => Ok v
  | None => Raise (KeyError k)
  end.

(** [l[0]] on a sequence: an empty one raises [IndexError]. *)
Definition first {A} (l : list A) : result A :=
  match l with
  | x :: _ => Ok x
  | [] => Raise IndexError
  end.

(** [sep.join(parts)] *)
Fixpoint join (sep : string) (parts : list string) : string :=
  match parts with
  | [] => ""
  | [p] => p
  | p :: rest => p +:+ sep +:+ join sep rest
  end.

(** [str(n)] for an int. *)
Definition str (n : Z) : string := pretty n.

(** Truth value of an attribute that is [None] or a string. *)
Definition truthy (o : option string) : bool :=
  match o with
  | None => false
  | Some s => negb (String.eqb s "")
  end.

Definition LF : string := String "010" EmptyString.
Definition TAB : string := String "009" EmptyString.

(** [needle in haystack] for strings. *)
Fixpoint contains (needle haystack : string) : bool :=
  String.prefix needle haystack
  || match haystack with
     | EmptyString => false
     | String _ rest => contains needle rest
     end.

End Py.
Import Py.

Declare Scope py_scope.
Notation "x <- c ;; k" := (Py.bind c (fun x => k))
  (at level 100, c at next level, right associativity) : py_scope.
Local Open Scope py_scope.

(** ** Configuration object and the watcher classes *)

(** The attributes of [GaugeConf] that this module reads. *)
Record GaugeConf : Type := mkConf {
  type : string;
  db_type : string;
  file : option string;
  compress : bool
}.

(** The classes that [WATCHER_TYPES] mentions: four are defined in this
    module, the others are imported from [gauge_influx] and [gauge_prom]. *)
Inductive watcher_class : Type :=
| GaugePortStateLogger
| GaugePortStateInfluxDBLogger
| GaugePortStatePrometheusPoller
| GaugePortStatsLogger
| GaugePortStatsInfluxDBLogger
| GaugePortStatsPrometheusPoller
| GaugeFlowTableLogger
| GaugeFlowTableInfluxDBLogger
| GaugeFlowTablePrometheusPoller
| GaugeMeterStatsLogger
| GaugeMeterStatsPrometheusPoller.

(** ** watcher_factory *)

Definition WATCHER_TYPES : gmap string (gmap string watcher_class) :=
  list_to_map [
    ("port_state", list_to_map [
       ("text", GaugePortStateLogger);
       ("influx", GaugePortStateInfluxDBLogger);
       ("prometheus", GaugePortStatePrometheusPoller)]);
    ("port_stats", list_to_map [
       ("text", GaugePortStatsLogger);
       ("influx", GaugePortStatsInfluxDBLogger);
       ("prometheus", GaugePortStatsPrometheusPoller)]);
    ("flow_table", list_to_map [
       ("text", GaugeFlowTableLogger);
       ("influx", GaugeFlowTableInfluxDBLogger);
       ("prometheus", GaugeFlowTablePrometheusPoller)]);
    ("meter_stats", list_to_map [
       ("text", GaugeMeterStatsLogger);
       ("prometheus", GaugeMeterStatsPrometheusPoller)])
  ].

(** [try: return WATCHER_TYPES[w_type][db_type]]
    [except KeyError: raise InvalidConfigError('invalid water config')] *)
Definition watcher_factory (conf : GaugeConf) : result watcher_class :=
  let w_type := type conf in
  let db_type := db_type conf in
  match (by_type <- getitem WATCHER_TYPES w_type ;; getitem by_type db_type) with
  | Ok cls => Ok cls
  | Raise (KeyError _) => Raise (InvalidConfigError "invalid water config")
  | Raise e => Raise e
  end.

(** *** The support matrix as the specification words it *)

Inductive report_kind : Type := port_state | port_stats | flow_table | meter_stats.
Inductive backend_kind : Type := text | influx | prometheus.

Definition report_kind_name (r : report_kind) : string :=
  match r with
  | port_state => "port_state"
  | port_stats => "port_stats"
  | flow_table => "flow_table"
  | meter_stats => "meter_stats"
  end.

Definition backend_kind_name (b : backend_kind) : string :=
  match b with
  | text => "text"
  | influx => "influx"
  | prometheus => "prometheus"
  end.

(** The matrix of section 4.1: [Some] for a check mark, with the sink of
    that report kind for that backend, [None] for the dash. *)
Definition support_matrix (r : report_kind) (b : backend_kind) : option watcher_class :=
  match r, b with
  | port_state, text => Some GaugePortStateLogger
  | port_state, influx => Some GaugePortStateInfluxDBLogger
  | port_state, prometheus => Some GaugePortStatePrometheusPoller
  | port_stats, text => Some GaugePortStatsLogger
  | port_stats, influx => Some GaugePortStatsInfluxDBLogger
  | port_stats, prometheus => Some GaugePortStatsPrometheusPoller
  | flow_table, text => Some GaugeFlowTableLogger
  | flow_table, influx => Some GaugeFlowTableInfluxDBLogger
  | flow_table, prometheus => Some GaugeFlowTablePrometheusPoller
  | meter_stats, text => Some GaugeMeterStatsLogger
  | meter_stats, influx => None
  | meter_stats, prometheus => Some GaugeMeterStatsPrometheusPoller
  end.

Definition parse_report_kind (s : string) : option report_kind :=
  if String.eqb s "port_state" then Some port_state
  else if String.eqb s "port_stats" then Some port_stats
  else if String.eqb s "flow_table" then Some flow_table
  else if String.eqb s "meter_stats" then Some meter_stats
  else None.

Definition parse_backend_kind (s : string) : option backend_kind :=
  if String.eqb s "text" then Some text
  else if String.eqb s "influx" then Some influx
  else if String.eqb s "prometheus" then Some prometheus
  else None.

(** A pair of configuration strings is in the matrix when both name a kind
    and the matrix has a check mark there. *)
Definition matrix_entry (w d : string) : option watcher_class :=
  match parse_report_kind w, parse_backend_kind d with
  | Some r, Some b => support_matrix r b
  | _, _ => None
  end.

(** The error message names the pair when both of its components occur
    in the message text. *)
Definition names_pair (msg w d : string) : bool :=
  contains w msg && contains d msg.


(** ** The world a sink acts on: files and the process log *)

Inductive loglevel : Type := DEBUG | INFO | WARNING | ERROR.

(** File contents by path, the paths the operating system refuses to open
    for writing, and the records handed to the logger, oldest first. *)
Record World : Type := mkWorld {
  files : gmap string string;
  unwritable : gset string;
  log : list (loglevel * string)
}.

Module IO.

(** Effectful code: it runs in a world, leaves a world behind, and either
    returns or raises. What was done before an exception stays done. *)
Definition M (A : Type) : Type := World -> result A * World.

Definition ret {A} (a : A) : M A := fun w => (Ok a, w).

Definition bind {A B} (c : M A) (k : A -> M B) : M B :=
  fun w =>
    match c w with
    | (Ok a, w') => k a w'
    | (Raise e, w') => (Raise e, w')
    end.

(** The contents of a file, empty when it does not exist yet. *)
Definition contents (fs : gmap string string) (path : string) : string :=
  default "" (fs !! path).

(** [logger.info(msg)] *)
Definition logger_info (msg : string) : M unit :=
  fun w => (Ok tt, mkWorld (files w) (unwritable w) (log w ++ [(INFO, msg)])).

(** Opening [filename] for appending, writing the bytes [data] once and
    closing. [None] is not a path, the empty path names no file, and the
    operating system may refuse the path. Only a refusal at the open is
    modelled, with [unwritable] as the paths refused; an error while
    writing or closing, after the file was opened, is not, so nothing is
    concluded below from the mere fact that a call raised. *)
Definition append_bytes (filename : option string) (data : string) : M unit :=
  fun w =>
    match filename with
    | None => (Raise TypeError, w)
    | Some path =>
        if String.eqb path "" then (Raise (FileNotFoundError path), w)
        else if decide (path ∈ unwritable w) then (Raise (PermissionError path), w)
        else (Ok tt,
              mkWorld (<[path := contents (files w) path +:+ data]> (files w))
                      (unwritable w) (log w))
    end.

(** [with open(filename, 'a') as f: f.write(data)] *)
Definition open_a_write (filename : option string) (data : string) : M unit :=
  append_bytes filename data.

(** [with gzip.open(filename, 'at') as f: f.write(data)], where [gz data]
    is the gzip member that holds [data]. *)
Definition gzip_open_at_write (gz : string -> string)
    (filename : option string) (data : string) : M unit :=
  append_bytes filename (gz data).

End IO.
Import IO.

Notation "x <-- c ;;; k" := (IO.bind c (fun x => k))
  (at level 100, c at next level, right associativity) : py_scope.

(** ** Messages and the datapath *)

(** ryu.ofproto.ofproto_v1_3 *)
Module ofp.
Definition OFPPR_ADD : Z := 0.
Definition OFPPR_DELETE : Z := 1.
Definition OFPPR_MODIFY : Z := 2.
Definition OFPPS_LINK_DOWN : Z := Z.shiftl 1 0.
End ofp.

(** The datapath attributes the loggers read; [port_labels] belongs to the
    datapath and may raise. *)
Record DP : Type := mkDP {
  dp_id : Z;
  name : string;
  port_labels : Z -> result (gmap string string)
}.

(** A logger instance: [self.dp] and [self.conf]. *)
Record Gauge : Type := mkGauge {
  dp : DP;
  conf : GaugeConf
}.

Module OFPPort.
Record t : Type := mk { port_no : Z; state : Z }.
End OFPPort.

Module OFPPortStatus.
Record t : Type := mk { reason : Z; desc : OFPPort.t }.
End OFPPortStatus.

Module OFPPortStats.
Record t : Type := mk { port_no : Z }.
End OFPPortStats.

Module OFPMeterBandStats.
Record t : Type := mk { packet_band_count : Z; byte_band_count : Z }.
End OFPMeterBandStats.

Module OFPMeterStats.
Record t : Type := mk {
  meter_id : Z;
  flow_count : Z;
  packet_in_count : Z;
  byte_in_count : Z;
  band_stats : list OFPMeterBandStats.t
}.
End OFPMeterStats.

(** What [json.dumps] accepts; an object keeps its keys in insertion order. *)
Local Unset Elimination Schemes.
Inductive json : Type :=
| JNull
| JBool (b : bool)
| JNumber (n : Z)
| JString (s : string)
| JArray (items : list json)
| JObject (members : list (string * json)).
Local Set Elimination Schemes.

Module OFPFlowStatsReply.
Record t : Type := mk { to_jsondict : json }.
End OFPFlowStatsReply.

(** ** class GaugePortStateLogger *)

Module PortStateLogger.
Section PortStateLogger.

(** Inherited from [GaugePortStatePoller] and imported from
    [faucet.valve_util]: the rendering of a receive time and of a
    datapath id. *)
Variable rcv_time_t : Type.
Variable _rcv_time : rcv_time_t -> string.
Variable dpid_log : Z -> string.

(** The message [_update] builds before it adds the datapath prefix. *)
Definition render (msg : OFPPortStatus.t) : string :=
  let reason := OFPPortStatus.reason msg in
  let port_no := OFPPort.port_no (OFPPortStatus.desc msg) in
  let log_msg := "port " +:+ str port_no +:+ " unknown state " +:+ str reason in
  if Z.eqb reason ofp.OFPPR_ADD then
    "port " +:+ str port_no +:+ " added"
  else if Z.eqb reason ofp.OFPPR_DELETE then
    "port " +:+ str port_no +:+ " deleted"
  else if Z.eqb reason ofp.OFPPR_MODIFY then
    let link_down := Z.land (OFPPort.state (OFPPortStatus.desc msg)) ofp.OFPPS_LINK_DOWN in
    if negb (Z.eqb link_down 0) then
      "port " +:+ str port_no +:+ " down"
    else
      "port " +:+ str port_no +:+ " up"
  else log_msg.

(** The message with the datapath prefix: ['%s %s' % (dpid_log(...), log_msg)]. *)
Definition prefixed (self : Gauge) (msg : OFPPortStatus.t) : string :=
  dpid_log (dp_id (dp self)) +:+ " " +:+ render msg.

Definition _update (self : Gauge) (rcv_time : rcv_time_t) (msg : OFPPortStatus.t)
  : M unit :=
  let rcv_time_str := _rcv_time rcv_time in
  let log_msg := prefixed self msg in
  _ <-- logger_info log_msg ;;;
  if truthy (file (conf self)) then
    open_a_write (file (conf self)) (join TAB [rcv_time_str; log_msg] +:+ LF)
  else IO.ret tt.

(** The poller calling [_update] once for each port status message received,
    in order; an exception ends the run. *)
Fixpoint updates (self : Gauge) (calls : list (rcv_time_t * OFPPortStatus.t))
  : M unit :=
  match calls with
  | [] => IO.ret tt
  | (rcv_time, msg) :: rest =>
      _ <-- _update self rcv_time msg ;;; updates self rest
  end.

End PortStateLogger.
End PortStateLogger.

(** ** class GaugePortStatsLogger *)

Module PortStatsLogger.

Definition _dp_stat_name (self : Gauge) (stat : OFPPortStats.t) (stat_name : string)
  : result string :=
  labels <- port_labels (dp self) (OFPPortStats.port_no stat) ;;
  port_name <- getitem labels "port" ;;
  Ok (join "-" [name (dp self); port_name; stat_name]).

End PortStatsLogger.

(** ** class GaugeMeterStatsLogger *)

Module MeterStatsLogger.
Section MeterStatsLogger.

(** Inherited from the poller base class: the formatter the pairs are
    handed to. *)
Variable formatted : Type.
Variable _format_stats : string -> list (list string * Z) -> formatted.

(** The tuple [stat_pairs] that [_format_stat_pairs] builds. *)
Definition stat_pairs (stat : OFPMeterStats.t) : result (list (list string * Z)) :=
  band_stats <- first (OFPMeterStats.band_stats stat) ;;
  Ok [ (["flow"; "count"], OFPMeterStats.flow_count stat);
       (["byte"; "in"; "count"], OFPMeterStats.byte_in_count stat);
       (["packet"; "in"; "count"], OFPMeterStats.packet_in_count stat);
       (["byte"; "band"; "count"], OFPMeterBandStats.byte_band_count band_stats);
       (["packet"; "band"; "count"], OFPMeterBandStats.packet_band_count band_stats) ].

Definition _format_stat_pairs (delim : string) (stat : OFPMeterStats.t)
  : result formatted :=
  pairs <- stat_pairs stat ;;
  Ok (_format_stats delim pairs).

Definition _dp_stat_name (self : Gauge) (stat : OFPMeterStats.t) (stat_name : string)
  : string :=
  join "-" [name (dp self); str (OFPMeterStats.meter_id stat); stat_name].

End MeterStatsLogger.
End MeterStatsLogger.

(** ** class GaugeFlowTableLogger *)

Module FlowTableLogger.
Section FlowTableLogger.

Variable rcv_time_t : Type.
Variable _rcv_time : rcv_time_t -> string.
(** [json.dumps] *)
Variable dumps : json -> string.
(** The [gzip] module: the member written for a text. *)
Variable gz : string -> string.

Definition jsondict (self : Gauge) (rcv_time : rcv_time_t) (msg : OFPFlowStatsReply.t)
  : json :=
  JObject [ ("time", JString (_rcv_time rcv_time));
            ("ref", JString (join "-" [name (dp self); "flowtables"]));
            ("msg", OFPFlowStatsReply.to_jsondict msg) ].

(** ['---\n{}\n'.format(json.dumps(jsondict))] *)
Definition outstr (self : Gauge) (rcv_time : rcv_time_t) (msg : OFPFlowStatsReply.t)
  : string :=
  "---" +:+ LF +:+ dumps (jsondict self rcv_time msg) +:+ LF.

Definition _update (self : Gauge) (rcv_time : rcv_time_t) (msg : OFPFlowStatsReply.t)
  : M unit :=
  let filename := file (conf self) in
  let outstr := outstr self rcv_time msg in
  if compress (conf self) then
    gzip_open_at_write gz filename outstr
  else
    open_a_write filename outstr.

(** The poller calling [_update] once for each reply received, in order;
    an exception ends the run. *)
Fixpoint updates (self : Gauge) (calls : list (rcv_time_t * OFPFlowStatsReply.t))
  : M unit :=
  match calls with
  | [] => IO.ret tt
  | (rcv_time, msg) :: rest =>
      _ <-- _update self rcv_time msg ;;; updates self rest
  end.

End FlowTableLogger.
End FlowTableLogger.

(** ** Reading a compressed output back

    [gunzip] stands for reading a whole gzip file. The world [wz], written
    with compression, matches the world [wp], written without, when the
    file at [path] of the first reads back as the file at [path] of the
    second and the two worlds are otherwise the same. *)
Definition gunzips_to (gunzip : string -> option string) (path : string)
    (wz wp : World) : Prop :=
  gunzip (contents (files wz) path) = Some (contents (files wp) path)
  /\ (is_Some (files wz !! path) <-> is_Some (files wp !! path))
  /\ (forall other : string, other <> path -> files wz !! other = files wp !! other)
  /\ unwritable wz = unwritable wp
  /\ log wz = log wp.

(** ** Strings that avoid a character

    [lacks c s]: the character [c] does not occur in [s]. Used to tell
    where one part of a composed name or message ends. *)
Fixpoint lacks (c : ascii) (s : string) : bool :=
  match s with
  | EmptyString => true
  | String x rest => negb (Ascii.eqb x c) && lacks c rest
  end.

(** The texts written one after the other. *)
Definition concat_texts (texts : list string) : string :=
  foldr String.append "" texts.

(** ** A concrete set of collaborators

    Stand-ins for what the module imports, simple enough to evaluate the
    sinks on examples: a decimal clock, a short datapath prefix, the
    delimiter-joining formatter, a compact JSON printer and a gzip codec
    that stores its data uncompressed. *)

Module Sample.

Definition _rcv_time (t : Z) : string := str t.

Definition dpid_log (dpid : Z) : string := "DPID " +:+ str dpid.

Definition _format_stats (delim : string) (pairs : list (list string * Z))
  : list (string * Z) :=
  map (fun p => (join delim (fst p), snd p)) pairs.

Definition quote : string := String "034" EmptyString.

Fixpoint dumps (j : json) : string :=
  match j with
  | JNull => "null"
  | JBool b => if b then "true" else "false"
  | JNumber n => str n
  | JString s => quote +:+ s +:+ quote
  | JArray items => "[" +:+ join ", " (map dumps items) +:+ "]"
  | JObject members =>
      "{" +:+ join ", "
                (map (fun m => quote +:+ fst m +:+ quote +:+ ": " +:+ dumps (snd m))
                     members)
          +:+ "}"
  end.

(** A member is its text with ["1"] before every character, closed by
    ["0"]. *)
Fixpoint gz (data : string) : string :=
  match data with
  | EmptyString => "0"
  | String c rest => String "1" (String c (gz rest))
  end.

(** Reading a sequence of members; [literal] tells that the next
    character is text. *)
Fixpoint gunzip_from (literal : bool) (stream : string) : option string :=
  match stream with
  | EmptyString => if literal then None else Some ""
  | String c rest =>
      if literal then String c <$> gunzip_from false rest
      else if Ascii.eqb c "0" then gunzip_from false rest
      else if Ascii.eqb c "1" then gunzip_from true rest
      else None
  end.

Definition gunzip : string -> option string := gunzip_from false.

Definition dp1 : DP :=
  mkDP 1 "sw1" (fun port_no => Ok {[ "port" := "p" +:+ str port_no ]}).

Definition world0 : World := mkWorld ∅ ∅ [].

End Sample.


(** ** Proof steps used below *)

(** Deciding a configuration string against a literal, both ways. *)
Ltac split_name s lit :=
  destruct (String.eqb_spec s lit) as [->|?].

(** Reading a dict literal at a key. *)
Ltac dict_lookup :=
  repeat (rewrite lookup_insert || rewrite lookup_empty
          || (case_decide; [try (congruence || discriminate) ..]));
  cbn.

(** Peeling equal leading parts off an equation between composed names. *)
Ltac peel H :=
  repeat (apply (inj (String.app _)) in H);
  try discriminate H.

(** * Properties *)

(** ** Strings *)

Lemma append_assoc (a b c : string) : (a +:+ b) +:+ c = a +:+ (b +:+ c).
Proof.
  induction a as [|x a IH]; [reflexivity|].
  change (String x ((a +:+ b) +:+ c) = String x (a +:+ (b +:+ c))).
  by rewrite IH.
Qed.

Lemma append_cons (c : ascii) (a b : string) : String c a +:+ b = String c (a +:+ b).
Proof. reflexivity. Qed.

(** ** Sink resolution *)

Lemma getitem_WATCHER_TYPES (w : string) :
  getitem WATCHER_TYPES w =
    match parse_report_kind w with
    | Some r => getitem WATCHER_TYPES (report_kind_name r)
    | None => Raise (KeyError w)
    end.
Proof.
  unfold parse_report_kind.
  split_name w "port_state"; [reflexivity|].
  split_name w "port_stats"; [reflexivity|].
  split_name w "flow_table"; [reflexivity|].
  split_name w "meter_stats"; [reflexivity|].
  unfold getitem, WATCHER_TYPES. simpl list_to_map. by dict_lookup.
Qed.

Lemma getitem_by_type (r : report_kind) (d : string) :
  (by_type <- getitem WATCHER_TYPES (report_kind_name r) ;; getitem by_type d) =
    match parse_backend_kind d with
    | Some b =>
        match support_matrix r b with
        | Some cls => Ok cls
        | None => Raise (KeyError d)
        end
    | None => Raise (KeyError d)
    end.
Proof.
  unfold parse_backend_kind.
  split_name d "text"; [destruct r; reflexivity|].
  split_name d "influx"; [destruct r; reflexivity|].
  split_name d "prometheus"; [destruct r; reflexivity|].
  destruct r; unfold getitem, WATCHER_TYPES; simpl list_to_map; cbn [Py.bind];
    dict_lookup; by dict_lookup.
Qed.

(** The outcome of [watcher_factory] on any pair of configuration strings. *)
Lemma watcher_factory_matrix_entry (conf : GaugeConf) :
  watcher_factory conf =
    match matrix_entry (type conf) (db_type conf) with
    | Some cls => Ok cls
    | None => Raise (InvalidConfigError "invalid water config")
    end.
Proof.
  destruct conf as [w d f c]. unfold watcher_factory, matrix_entry. cbn [type db_type].
  rewrite getitem_WATCHER_TYPES.
  destruct (parse_report_kind w) as [r|]; [|reflexivity].
  rewrite getitem_by_type.
  destruct (parse_backend_kind d) as [b|]; [|reflexivity].
  by destruct (support_matrix r b).
Qed.

(** C1: [watcher_factory] returns the sink class of the pair when the
    support matrix of section 4.1 has a check mark for it, and raises
    [InvalidConfigError] for every other pair: for each report kind and
    backend kind the outcome is the matrix entry, so (meter_stats, influx)
    is rejected, and a pair of strings of which one names no kind is
    rejected as well. *)
Theorem watcher_factory_support_matrix :
  (forall (r : report_kind) (b : backend_kind) (f : option string) (c : bool),
     watcher_factory (mkConf (report_kind_name r) (backend_kind_name b) f c) =
       match support_matrix r b with
       | Some cls => Ok cls
       | None => Raise (InvalidConfigError "invalid water config")
       end)
  /\ (forall conf : GaugeConf,
        watcher_factory conf =
          match matrix_entry (type conf) (db_type conf) with
          | Some cls => Ok cls
          | None => Raise (InvalidConfigError "invalid water config")
          end).
Proof.
  split; [|exact watcher_factory_matrix_entry].
  intros r b f c. rewrite watcher_factory_matrix_entry. by destruct r, b.
Qed.

(** C2, as stated, fails: the error raised for the unsupported pair
    (meter_stats, influx) has the message [invalid water config], in which
    neither component of the pair occurs. *)
Lemma watcher_factory_error_does_not_name_pair :
  watcher_factory (mkConf "meter_stats" "influx" None false)
    = Raise (InvalidConfigError "invalid water config")
  /\ names_pair "invalid water config" "meter_stats" "influx" = false
  /\ contains "meter_stats" "invalid water config" = false
  /\ contains "influx" "invalid water config" = false.
Proof. by vm_compute. Qed.

(** C2, amended: whenever [watcher_factory] rejects a configuration, the
    exception is an [InvalidConfigError] whose message is one fixed text,
    the same for every rejected pair, so it does not tell which pair was
    rejected. *)
Theorem watcher_factory_error_fixed (conf conf' : GaugeConf) (e e' : exn) :
  watcher_factory conf = Raise e ->
  watcher_factory conf' = Raise e' ->
  e = e' /\ exists msg : string, e = InvalidConfigError msg.
Proof.
  rewrite !watcher_factory_matrix_entry.
  destruct (matrix_entry (type conf) (db_type conf)); [discriminate|].
  destruct (matrix_entry (type conf') (db_type conf')); [discriminate|].
  intros [= <-] [= <-]. split; [reflexivity | by eexists].
Qed.

Lemma watcher_factory_error_fixed_witness :
  let conf := mkConf "meter_stats" "influx" None false in
  let conf' := mkConf "port_state" "syslog" (Some "ports.log") false in
  let e := InvalidConfigError "invalid water config" in
  watcher_factory conf = Raise e
  /\ watcher_factory conf' = Raise e
  /\ e = e /\ exists msg : string, e = InvalidConfigError msg.
Proof.
  intros conf conf' e.
  refine (conj eq_refl (conj eq_refl _)).
  exact (watcher_factory_error_fixed conf conf' e e eq_refl eq_refl).
Defined.

(** ** Port-State Sink: the rendered message *)

Lemma land_link_down (state : Z) :
  negb (Z.eqb (Z.land state ofp.OFPPS_LINK_DOWN) 0) = Z.testbit state 0.
Proof.
  change ofp.OFPPS_LINK_DOWN with (Z.ones 1).
  rewrite Z.land_ones by lia.
  change (2 ^ 1) with 2. rewrite <- Z.bit0_mod.
  by destruct (Z.testbit state 0).
Qed.

(** C3: the message the Port-State Sink renders for a report is
    [port N added] for reason added, [port N deleted] for deleted,
    [port N down] for modified with the link-down bit of the port state
    set, [port N up] for modified with that bit clear, and
    [port N unknown state R] for every other reason code R; rendering is a
    total function, so no reason code makes it fail. *)
Theorem port_state_render_table (reason port_no state : Z) :
  let msg := OFPPortStatus.mk reason (OFPPort.mk port_no state) in
  (reason = ofp.OFPPR_ADD ->
     PortStateLogger.render msg = "port " +:+ str port_no +:+ " added")
  /\ (reason = ofp.OFPPR_DELETE ->
        PortStateLogger.render msg = "port " +:+ str port_no +:+ " deleted")
  /\ (reason = ofp.OFPPR_MODIFY -> Z.testbit state 0 = true ->
        PortStateLogger.render msg = "port " +:+ str port_no +:+ " down")
  /\ (reason = ofp.OFPPR_MODIFY -> Z.testbit state 0 = false ->
        PortStateLogger.render msg = "port " +:+ str port_no +:+ " up")
  /\ (reason <> ofp.OFPPR_ADD -> reason <> ofp.OFPPR_DELETE ->
      reason <> ofp.OFPPR_MODIFY ->
        PortStateLogger.render msg
          = "port " +:+ str port_no +:+ " unknown state " +:+ str reason).
Proof.
  unfold PortStateLogger.render; cbn [OFPPortStatus.reason OFPPortStatus.desc
                                      OFPPort.port_no OFPPort.state].
  repeat split.
  - by intros ->.
  - by intros ->.
  - intros -> Hbit. cbn [Z.eqb ofp.OFPPR_MODIFY ofp.OFPPR_ADD ofp.OFPPR_DELETE].
    by rewrite land_link_down, Hbit.
  - intros -> Hbit. cbn [Z.eqb ofp.OFPPR_MODIFY ofp.OFPPR_ADD ofp.OFPPR_DELETE].
    by rewrite land_link_down, Hbit.
  - intros Ha Hd Hm.
    apply Z.eqb_neq in Ha, Hd, Hm. by rewrite Ha, Hd, Hm.
Qed.

Lemma port_state_render_table_witness :
  PortStateLogger.render (OFPPortStatus.mk 0 (OFPPort.mk 3 0)) = "port 3 added"
  /\ PortStateLogger.render (OFPPortStatus.mk 1 (OFPPort.mk 3 0)) = "port 3 deleted"
  /\ PortStateLogger.render (OFPPortStatus.mk 2 (OFPPort.mk 3 5)) = "port 3 down"
  /\ PortStateLogger.render (OFPPortStatus.mk 2 (OFPPort.mk 3 4)) = "port 3 up"
  /\ PortStateLogger.render (OFPPortStatus.mk 99 (OFPPort.mk 7 0))
     = "port 7 unknown state 99".
Proof.
  refine (conj _ (conj _ (conj _ (conj _ _)))).
  - apply (proj1 (port_state_render_table 0 3 0)). reflexivity.
  - apply (proj1 (proj2 (port_state_render_table 1 3 0))). reflexivity.
  - apply (proj1 (proj2 (proj2 (port_state_render_table 2 3 5)))); reflexivity.
  - apply (proj1 (proj2 (proj2 (proj2 (port_state_render_table 2 3 4))))); reflexivity.
  - apply (proj2 (proj2 (proj2 (proj2 (port_state_render_table 99 7 0))))); discriminate.
Defined.

(** ** Meter-Stats Sink: the pairs handed to the formatter *)

Section MeterStats.

Variable formatted : Type.
Variable _format_stats : string -> list (list string * Z) -> formatted.

(** Without a band there is nothing to take: [band_stats[0]] raises. *)
Lemma meter_stat_pairs_no_band (delim : string) (stat : OFPMeterStats.t) :
  OFPMeterStats.band_stats stat = [] ->
  MeterStatsLogger._format_stat_pairs formatted _format_stats delim stat
    = Raise IndexError.
Proof.
  intros Hb. unfold MeterStatsLogger._format_stat_pairs, MeterStatsLogger.stat_pairs.
  by rewrite Hb.
Qed.

(** C4: for a meter report with at least one band, the Meter-Stats Sink
    hands the formatter exactly five pairs, in the order flow count,
    byte in count, packet in count, byte band count, packet band count,
    the last two taken from the first band; the bands after the first do
    not change the outcome. *)
Theorem meter_stat_pairs_first_band
    (delim : string) (stat : OFPMeterStats.t)
    (band : OFPMeterBandStats.t) (others : list OFPMeterBandStats.t) :
  OFPMeterStats.band_stats stat = band :: others ->
  let pairs :=
    [ (["flow"; "count"], OFPMeterStats.flow_count stat);
      (["byte"; "in"; "count"], OFPMeterStats.byte_in_count stat);
      (["packet"; "in"; "count"], OFPMeterStats.packet_in_count stat);
      (["byte"; "band"; "count"], OFPMeterBandStats.byte_band_count band);
      (["packet"; "band"; "count"], OFPMeterBandStats.packet_band_count band) ] in
  MeterStatsLogger.stat_pairs stat = Ok pairs
  /\ MeterStatsLogger._format_stat_pairs formatted _format_stats delim stat
     = Ok (_format_stats delim pairs)
  /\ (forall others' : list OFPMeterBandStats.t,
        MeterStatsLogger._format_stat_pairs formatted _format_stats delim
          (OFPMeterStats.mk (OFPMeterStats.meter_id stat)
             (OFPMeterStats.flow_count stat) (OFPMeterStats.packet_in_count stat)
             (OFPMeterStats.byte_in_count stat) (band :: others'))
        = MeterStatsLogger._format_stat_pairs formatted _format_stats delim stat).
Proof.
  intros Hb pairs.
  unfold MeterStatsLogger._format_stat_pairs, MeterStatsLogger.stat_pairs.
  rewrite Hb. cbn. auto.
Qed.

End MeterStats.

Lemma meter_stat_pairs_first_band_witness :
  let stat := OFPMeterStats.mk 1 5 10 100
                [OFPMeterBandStats.mk 4 50; OFPMeterBandStats.mk 9 900] in
  let pairs := [ (["flow"; "count"], 5); (["byte"; "in"; "count"], 100);
                 (["packet"; "in"; "count"], 10); (["byte"; "band"; "count"], 50);
                 (["packet"; "band"; "count"], 4) ] in
  MeterStatsLogger.stat_pairs stat = Ok pairs
  /\ MeterStatsLogger._format_stat_pairs _ Sample._format_stats "_" stat
     = Ok [("flow_count", 5); ("byte_in_count", 100); ("packet_in_count", 10);
           ("byte_band_count", 50); ("packet_band_count", 4)]
  /\ MeterStatsLogger._format_stat_pairs _ Sample._format_stats "_"
       (OFPMeterStats.mk 1 5 10 100 [OFPMeterBandStats.mk 4 50])
     = MeterStatsLogger._format_stat_pairs _ Sample._format_stats "_" stat.
Proof.
  intros stat pairs.
  destruct (meter_stat_pairs_first_band _ Sample._format_stats "_" stat
              (OFPMeterBandStats.mk 4 50) [OFPMeterBandStats.mk 9 900] eq_refl)
    as (Hpairs & Hfmt & Hothers).
  refine (conj Hpairs (conj Hfmt (Hothers []))).
Defined.

(** ** Port-Stats Sink: the series name *)

(** C5: the series name of the Port-Stats Sink is the datapath name, the
    port label and the counter name joined by hyphens; the label is what
    the datapath's [port_labels] gives for the port number of the report
    at each call, its failure is passed on unchanged and a missing label
    is an error, not a default; reports and datapaths with the same name,
    label and counter name get the same series name. *)
Theorem port_stats_series_name :
  (forall (self : Gauge) (stat : OFPPortStats.t) (stat_name : string),
     PortStatsLogger._dp_stat_name self stat stat_name =
       match port_labels (dp self) (OFPPortStats.port_no stat) with
       | Ok labels =>
           match labels !! "port" with
           | Some port_label =>
               Ok (name (dp self) +:+ "-" +:+ port_label +:+ "-" +:+ stat_name)
           | None => Raise (KeyError "port")
           end
       | Raise e => Raise e
       end)
  /\ (forall (self self' : Gauge) (stat stat' : OFPPortStats.t)
             (labels labels' : gmap string string) (stat_name : string),
        name (dp self) = name (dp self') ->
        port_labels (dp self) (OFPPortStats.port_no stat) = Ok labels ->
        port_labels (dp self') (OFPPortStats.port_no stat') = Ok labels' ->
        labels !! "port" = labels' !! "port" ->
        PortStatsLogger._dp_stat_name self stat stat_name
          = PortStatsLogger._dp_stat_name self' stat' stat_name).
Proof.
  assert (forall self stat stat_name,
     PortStatsLogger._dp_stat_name self stat stat_name =
       match port_labels (dp self) (OFPPortStats.port_no stat) with
       | Ok labels =>
           match labels !! "port" with
           | Some port_label =>
               Ok (name (dp self) +:+ "-" +:+ port_label +:+ "-" +:+ stat_name)
           | None => Raise (KeyError "port")
           end
       | Raise e => Raise e
       end) as Heq.
  { intros self stat stat_name. unfold PortStatsLogger._dp_stat_name, getitem.
    destruct (port_labels _ _) as [labels|e]; [|reflexivity]. cbn.
    by destruct (labels !! "port"). }
  split; [exact Heq|].
  intros self self' stat stat' labels labels' stat_name Hname Hl Hl' Hport.
  by rewrite !Heq, Hl, Hl', Hname, Hport.
Qed.

Lemma port_stats_series_name_witness :
  let self := mkGauge Sample.dp1 (mkConf "port_stats" "text" None false) in
  let self' :=
    mkGauge (mkDP 2 "sw1" (fun _ => Ok {[ "port" := "p7"; "dp_name" := "sw1" ]}))
            (mkConf "port_stats" "text" (Some "ports.log") false) in
  PortStatsLogger._dp_stat_name self (OFPPortStats.mk 7) "rx_bytes" = Ok "sw1-p7-rx_bytes"
  /\ PortStatsLogger._dp_stat_name self (OFPPortStats.mk 7) "rx_bytes"
     = PortStatsLogger._dp_stat_name self' (OFPPortStats.mk 3) "rx_bytes".
Proof.
  intros self self'. split.
  - rewrite (proj1 port_stats_series_name). reflexivity.
  - apply (proj2 port_stats_series_name self self' (OFPPortStats.mk 7)
             (OFPPortStats.mk 3) {[ "port" := "p7" ]}
             {[ "port" := "p7"; "dp_name" := "sw1" ]} "rx_bytes");
      reflexivity.
Defined.

(** ** Appending to a file *)

Lemma append_bytes_ok (path data : string) (w : World) :
  path <> "" -> path ∉ unwritable w ->
  append_bytes (Some path) data w
    = (Ok tt, mkWorld (<[path := contents (files w) path +:+ data]> (files w))
                      (unwritable w) (log w)).
Proof.
  intros Hne Hw. unfold append_bytes.
  apply String.eqb_neq in Hne. rewrite Hne.
  by destruct (decide (path ∈ unwritable w)).
Qed.

Lemma append_bytes_refused (path data : string) (w : World) :
  path <> "" -> path ∈ unwritable w ->
  append_bytes (Some path) data w = (Raise (PermissionError path), w).
Proof.
  intros Hne Hw. unfold append_bytes.
  apply String.eqb_neq in Hne. rewrite Hne.
  by destruct (decide (path ∈ unwritable w)).
Qed.

Lemma append_bytes_returns (filename : option string) (data : string) (w w' : World) :
  append_bytes filename data w = (Ok tt, w') ->
  exists path, filename = Some path /\ path <> "" /\ path ∉ unwritable w.
Proof.
  unfold append_bytes. destruct filename as [path|]; [|discriminate].
  destruct (String.eqb_spec path ""); [discriminate|].
  destruct (decide (path ∈ unwritable w)); [discriminate|].
  intros _. by exists path.
Qed.

Lemma truthy_path (path : string) : path <> "" -> truthy (Some path) = true.
Proof. intros Hne. cbn. apply String.eqb_neq in Hne. by rewrite Hne. Qed.

(** ** Flow-Table Sink: the document *)

Section FlowTable.

Variable rcv_time_t : Type.
Variable _rcv_time : rcv_time_t -> string.
Variable dumps : json -> string.
Variable gz : string -> string.

Local Abbreviation flow_update :=
  (FlowTableLogger._update rcv_time_t _rcv_time dumps gz).

(** C6: a call of the Flow-Table Sink's update with a file configured
    that can be opened writes one document, three dashes and a line
    feed, the serialized JSON object and a line feed, at the end of that
    file (as one gzip member when [compress] is set) and changes nothing
    else; the object has the fields [time], the rendered receive time,
    [ref], the datapath name followed by [-flowtables], and [msg], the
    reply as a JSON structure, and no other. *)
Theorem flow_table_document
    (self : Gauge) (rcv_time : rcv_time_t) (msg : OFPFlowStatsReply.t)
    (w : World) (path : string) :
  file (conf self) = Some path -> path <> "" -> path ∉ unwritable w ->
  let document :=
    "---" +:+ LF
    +:+ dumps (JObject [ ("time", JString (_rcv_time rcv_time));
                         ("ref", JString (name (dp self) +:+ "-flowtables"));
                         ("msg", OFPFlowStatsReply.to_jsondict msg) ])
    +:+ LF in
  let written := if compress (conf self) then gz document else document in
  flow_update self rcv_time msg w
    = (Ok tt, mkWorld (<[path := contents (files w) path +:+ written]> (files w))
                      (unwritable w) (log w)).
Proof.
  intros Hfile Hne Hw document written.
  unfold FlowTableLogger._update, gzip_open_at_write, open_a_write.
  rewrite Hfile. subst written.
  destruct (compress (conf self)); by rewrite append_bytes_ok.
Qed.

End FlowTable.

Lemma flow_table_document_witness :
  let self := mkGauge Sample.dp1 (mkConf "flow_table" "text" (Some "flows.log") false) in
  let msg := OFPFlowStatsReply.mk (JObject [("OFPFlowStatsReply", JArray [])]) in
  FlowTableLogger._update Z Sample._rcv_time Sample.dumps Sample.gz self 17 msg
    Sample.world0
  = (Ok tt,
     mkWorld {[ "flows.log" :=
                  "---" +:+ LF
                  +:+ Sample.dumps
                        (JObject [ ("time", JString "17");
                                   ("ref", JString "sw1-flowtables");
                                   ("msg", JObject [("OFPFlowStatsReply", JArray [])]) ])
                  +:+ LF ]}
             ∅ []).
Proof.
  intros self msg.
  rewrite (flow_table_document Z Sample._rcv_time Sample.dumps Sample.gz self 17 msg
             Sample.world0 "flows.log");
    [reflexivity | reflexivity | discriminate | apply not_elem_of_empty].
Defined.

(** ** Port-State Sink: what an update does *)

Section PortState.

Variable rcv_time_t : Type.
Variable _rcv_time : rcv_time_t -> string.
Variable dpid_log : Z -> string.

Local Abbreviation port_state_update :=
  (PortStateLogger._update rcv_time_t _rcv_time dpid_log).

(** An update without a usable file path logs one record and returns. *)
Lemma port_state_update_no_file
    (self : Gauge) (rcv_time : rcv_time_t) (msg : OFPPortStatus.t) (w : World) :
  truthy (file (conf self)) = false ->
  port_state_update self rcv_time msg w
    = (Ok tt,
       mkWorld (files w) (unwritable w)
         (log w ++ [(INFO, dpid_log (dp_id (dp self)) +:+ " "
                           +:+ PortStateLogger.render msg)])).
Proof.
  intros Hf. unfold PortStateLogger._update, IO.bind, logger_info. by rewrite Hf.
Qed.

(** C8: every update of the Port-State Sink hands the logger, at info
    level, the rendered message with the datapath prefix and a space
    before it; when no file path is configured this is all it does, and
    when one is configured and can be opened it also appends to that file
    the rendered receive time, a tab, the same prefixed message and a line
    feed, leaving every other file as it was. When the file cannot be
    opened the record has been logged and the error is passed on. *)
Theorem port_state_update_effects
    (self : Gauge) (rcv_time : rcv_time_t) (msg : OFPPortStatus.t) (w : World) :
  let line := dpid_log (dp_id (dp self)) +:+ " " +:+ PortStateLogger.render msg in
  let logged := (log w ++ [(INFO, line)])%list in
  let run := port_state_update self rcv_time msg w in
  log (snd run) = logged
  /\ unwritable (snd run) = unwritable w
  /\ (truthy (file (conf self)) = false ->
        run = (Ok tt, mkWorld (files w) (unwritable w) logged))
  /\ (forall path : string,
        file (conf self) = Some path -> path <> "" -> path ∉ unwritable w ->
        run = (Ok tt,
               mkWorld (<[path := contents (files w) path
                                  +:+ _rcv_time rcv_time +:+ TAB +:+ line +:+ LF]>
                          (files w))
                       (unwritable w) logged))
  /\ (forall path : string,
        file (conf self) = Some path -> path <> "" -> path ∈ unwritable w ->
        run = (Raise (PermissionError path), mkWorld (files w) (unwritable w) logged)).
Proof.
  intros line logged run.
  assert (forall path : string,
            file (conf self) = Some path -> path <> "" ->
            run = append_bytes (Some path) (_rcv_time rcv_time +:+ TAB +:+ line +:+ LF)
                    (mkWorld (files w) (unwritable w) logged)) as Hopen.
  { intros path Hfile Hne. subst run.
    unfold PortStateLogger._update, IO.bind, logger_info, open_a_write.
    rewrite Hfile, (truthy_path path Hne). cbn [join].
    unfold PortStateLogger.prefixed. subst line.
    by rewrite !append_assoc. }
  assert (truthy (file (conf self)) = false ->
          run = (Ok tt, mkWorld (files w) (unwritable w) logged)) as Hnone.
  { intros Hf. by apply port_state_update_no_file. }
  assert (log (snd run) = logged /\ unwritable (snd run) = unwritable w) as [Hlog Hunw].
  { destruct (file (conf self)) as [path|] eqn:Hfile; [|by rewrite Hnone].
    destruct (String.eqb_spec path "") as [->|Hne]; [by rewrite Hnone|].
    rewrite (Hopen path eq_refl Hne). unfold append_bytes.
    apply String.eqb_neq in Hne. rewrite Hne. cbn [unwritable].
    by destruct (decide (path ∈ unwritable w)). }
  refine (conj Hlog (conj Hunw (conj Hnone (conj _ _)))).
  - intros path Hfile Hne Hw. rewrite (Hopen path Hfile Hne).
    by rewrite append_bytes_ok.
  - intros path Hfile Hne Hw. rewrite (Hopen path Hfile Hne).
    by rewrite append_bytes_refused.
Qed.

End PortState.

Lemma port_state_update_effects_witness :
  let self := mkGauge Sample.dp1 (mkConf "port_state" "text" (Some "ports.log") false) in
  let msg := OFPPortStatus.mk 2 (OFPPort.mk 3 5) in
  PortStateLogger._update Z Sample._rcv_time Sample.dpid_log self 17 msg Sample.world0
  = (Ok tt,
     mkWorld {[ "ports.log" := "17" +:+ TAB +:+ "DPID 1 port 3 down" +:+ LF ]}
             ∅ [(INFO, "DPID 1 port 3 down")]).
Proof.
  intros self msg.
  pose proof (port_state_update_effects Z Sample._rcv_time Sample.dpid_log self 17 msg
                Sample.world0) as (_ & _ & _ & Hfile & _).
  rewrite (Hfile "ports.log");
    [reflexivity | reflexivity | discriminate | apply not_elem_of_empty].
Defined.

(** ** The file guard: Port-State has one, Flow-Table has none *)

Section FileGuard.

Variable rcv_time_t : Type.
Variable _rcv_time : rcv_time_t -> string.
Variable dpid_log : Z -> string.
Variable dumps : json -> string.
Variable gz : string -> string.

Local Abbreviation port_state_update :=
  (PortStateLogger._update rcv_time_t _rcv_time dpid_log).
Local Abbreviation flow_update :=
  (FlowTableLogger._update rcv_time_t _rcv_time dumps gz).

(** C9: the Flow-Table Sink's update opens its file whatever the
    configuration holds: with no file path it raises at the open, with or
    without compression, and writes nothing, where the Port-State Sink
    with the same configuration logs its record, skips the file and
    returns; an empty path is no better. So the Flow-Table update returns
    only when a file path is configured. *)
Theorem flow_table_update_needs_file
    (self : Gauge) (rcv_time : rcv_time_t) (w : World)
    (reply : OFPFlowStatsReply.t) (status : OFPPortStatus.t) :
  (file (conf self) = None ->
     flow_update self rcv_time reply w = (Raise TypeError, w)
     /\ port_state_update self rcv_time status w
        = (Ok tt,
           mkWorld (files w) (unwritable w)
             (log w ++ [(INFO, dpid_log (dp_id (dp self)) +:+ " "
                               +:+ PortStateLogger.render status)])))
  /\ (file (conf self) = Some "" ->
        flow_update self rcv_time reply w = (Raise (FileNotFoundError ""), w)
        /\ fst (port_state_update self rcv_time status w) = Ok tt)
  /\ (forall w' : World,
        flow_update self rcv_time reply w = (Ok tt, w') ->
        exists path : string, file (conf self) = Some path /\ path <> "").
Proof.
  refine (conj _ (conj _ _)).
  - intros Hfile. split.
    + unfold FlowTableLogger._update, gzip_open_at_write, open_a_write.
      rewrite Hfile. by destruct (compress (conf self)).
    + apply port_state_update_no_file. by rewrite Hfile.
  - intros Hfile. split.
    + unfold FlowTableLogger._update, gzip_open_at_write, open_a_write.
      rewrite Hfile. by destruct (compress (conf self)).
    + rewrite port_state_update_no_file; [reflexivity | by rewrite Hfile].
  - intros w'. unfold FlowTableLogger._update, gzip_open_at_write, open_a_write.
    destruct (compress (conf self)); intros Hrun;
      apply append_bytes_returns in Hrun as (path & Hfile & Hne & _);
      by exists path.
Qed.

(** C10: with no file path configured, two updates of the Port-State Sink
    with the same receive time and the same report both return and log
    the same record, one after the other; apart from the log the world is
    as it was. *)
Theorem port_state_update_twice
    (self : Gauge) (rcv_time : rcv_time_t) (status : OFPPortStatus.t) (w : World) :
  file (conf self) = None ->
  let record := (INFO, dpid_log (dp_id (dp self)) +:+ " "
                       +:+ PortStateLogger.render status) in
  (_ <-- port_state_update self rcv_time status ;;;
   port_state_update self rcv_time status) w
  = (Ok tt, mkWorld (files w) (unwritable w) (log w ++ [record; record])).
Proof.
  intros Hfile record. unfold IO.bind at 1.
  rewrite port_state_update_no_file by (by rewrite Hfile).
  rewrite port_state_update_no_file by (by rewrite Hfile).
  cbn [files unwritable log]. by rewrite <- app_assoc.
Qed.

End FileGuard.

Lemma flow_table_update_needs_file_witness :
  let self := mkGauge Sample.dp1 (mkConf "flow_table" "text" None true) in
  let reply := OFPFlowStatsReply.mk (JArray []) in
  let status := OFPPortStatus.mk 0 (OFPPort.mk 3 0) in
  FlowTableLogger._update Z Sample._rcv_time Sample.dumps Sample.gz self 17 reply
    Sample.world0 = (Raise TypeError, Sample.world0)
  /\ PortStateLogger._update Z Sample._rcv_time Sample.dpid_log self 17 status
       Sample.world0
     = (Ok tt, mkWorld ∅ ∅ [(INFO, "DPID 1 port 3 added")]).
Proof.
  intros self reply status.
  exact (proj1 (flow_table_update_needs_file Z Sample._rcv_time Sample.dpid_log
                  Sample.dumps Sample.gz self 17 Sample.world0 reply status) eq_refl).
Defined.

Lemma port_state_update_twice_witness :
  let self := mkGauge Sample.dp1 (mkConf "port_state" "text" None false) in
  let status := OFPPortStatus.mk 99 (OFPPort.mk 7 0) in
  (_ <-- PortStateLogger._update Z Sample._rcv_time Sample.dpid_log self 17 status ;;;
   PortStateLogger._update Z Sample._rcv_time Sample.dpid_log self 17 status)
    Sample.world0
  = (Ok tt,
     mkWorld ∅ ∅ [(INFO, "DPID 1 port 7 unknown state 99");
                  (INFO, "DPID 1 port 7 unknown state 99")]).
Proof.
  intros self status.
  exact (port_state_update_twice Z Sample._rcv_time Sample.dpid_log self 17 status
           Sample.world0 eq_refl).
Defined.

(** * Further properties of the module *)

(** ** Strings: cancellation and splitting *)

Lemma append_empty_r (a : string) : a +:+ "" = a.
Proof.
  induction a as [|x a IH]; [reflexivity|].
  rewrite append_cons. by rewrite IH.
Qed.

Lemma length_append (a b : string) :
  String.length (a +:+ b) = (String.length a + String.length b)%nat.
Proof.
  induction a as [|x a IH]; [reflexivity|].
  rewrite append_cons. cbn [String.length]. by rewrite IH.
Qed.

Lemma append_cancel_r (a b c : string) : a +:+ c = b +:+ c -> a = b.
Proof.
  revert b. induction a as [|x a IH]; intros [|y b] H.
  - reflexivity.
  - apply (f_equal String.length) in H.
    rewrite !length_append in H. cbn [String.length] in H. lia.
  - apply (f_equal String.length) in H.
    rewrite !length_append in H. cbn [String.length] in H. lia.
  - rewrite !append_cons in H. injection H as -> H. by rewrite (IH b H).
Qed.

(** Two texts that avoid [c], each followed by [c] and a rest: equal wholes
    have equal parts. *)
Lemma split_at (c : ascii) (a b r1 r2 : string) :
  lacks c a = true -> lacks c b = true ->
  a +:+ String c r1 = b +:+ String c r2 ->
  a = b /\ r1 = r2.
Proof.
  revert b. induction a as [|x a IH]; intros [|y b] Ha Hb H.
  - injection H as ->. by split.
  - rewrite append_cons in H. injection H as <- _.
    cbn [lacks] in Hb. rewrite Ascii.eqb_refl in Hb. discriminate.
  - rewrite append_cons in H. injection H as -> _.
    cbn [lacks] in Ha. rewrite Ascii.eqb_refl in Ha. discriminate.
  - rewrite !append_cons in H. injection H as -> H.
    cbn [lacks] in Ha, Hb.
    apply andb_true_iff in Ha as [_ Ha]. apply andb_true_iff in Hb as [_ Hb].
    destruct (IH b Ha Hb H) as [-> ->]. by split.
Qed.

(** Decimal digits are the only characters [str] writes for a number that
    is not negative. *)
Lemma pretty_N_go_lacks (c : ascii) (x : N) (s : string) :
  (forall d : N, pretty_N_char d <> c) ->
  lacks c s = true -> lacks c (pretty_N_go x s) = true.
Proof.
  intros Hc. revert s. induction (N.lt_wf_0 x) as [x _ IH]; intros s Hs.
  assert (x = 0 \/ 0 < x)%N as [->|Hpos] by lia.
  - by rewrite pretty_N_go_0.
  - rewrite pretty_N_go_step by done. apply IH.
    { by apply N.div_lt. }
    cbn [lacks]. rewrite Hs, andb_true_r.
    apply negb_true_iff, Ascii.eqb_neq, Hc.
Qed.

Lemma str_lacks (c : ascii) (n : Z) :
  (forall d : N, pretty_N_char d <> c) -> (c = "-"%char -> 0 <= n) ->
  lacks c (str n) = true.
Proof.
  intros Hc Hdash. unfold str, pretty, pretty_Z.
  destruct n as [|p|p].
  - cbn [lacks]. rewrite andb_true_r.
    apply negb_true_iff, Ascii.eqb_neq. apply (Hc 0%N).
  - unfold pretty, pretty_positive, pretty, pretty_N.
    destruct (decide (N.pos p = 0%N)); [lia|]. by apply pretty_N_go_lacks.
  - destruct (Ascii.eqb_spec c "-") as [->|Hne].
    + specialize (Hdash eq_refl). lia.
    + change ("-" +:+ pretty p) with (String "-" (pretty p)). cbn [lacks].
      apply andb_true_iff. split.
      * apply negb_true_iff, Ascii.eqb_neq. congruence.
      * unfold pretty, pretty_positive, pretty, pretty_N.
        destruct (decide (N.pos p = 0%N)); [lia|]. by apply pretty_N_go_lacks.
Qed.

Lemma digit_not_space (d : N) : pretty_N_char d <> " "%char.
Proof. unfold pretty_N_char. by repeat case_match. Qed.

Lemma digit_not_hyphen (d : N) : pretty_N_char d <> "-"%char.
Proof. unfold pretty_N_char. by repeat case_match. Qed.

Lemma str_lacks_space (n : Z) : lacks " " (str n) = true.
Proof. apply str_lacks; [apply digit_not_space | discriminate]. Qed.

Lemma str_inj (n m : Z) : str n = str m -> n = m.
Proof. apply pretty_Z_inj. Qed.

(** ** watcher_factory: the class tells the pair *)

Lemma parse_report_kind_name (w : string) (r : report_kind) :
  parse_report_kind w = Some r -> w = report_kind_name r.
Proof.
  unfold parse_report_kind.
  split_name w "port_state"; [by intros [= <-]|].
  split_name w "port_stats"; [by intros [= <-]|].
  split_name w "flow_table"; [by intros [= <-]|].
  split_name w "meter_stats"; [by intros [= <-]|].
  discriminate.
Qed.

Lemma parse_backend_kind_name (d : string) (b : backend_kind) :
  parse_backend_kind d = Some b -> d = backend_kind_name b.
Proof.
  unfold parse_backend_kind.
  split_name d "text"; [by intros [= <-]|].
  split_name d "influx"; [by intros [= <-]|].
  split_name d "prometheus"; [by intros [= <-]|].
  discriminate.
Qed.

Lemma watcher_factory_resolved (conf : GaugeConf) (cls : watcher_class) :
  watcher_factory conf = Ok cls ->
  exists (r : report_kind) (b : backend_kind),
    type conf = report_kind_name r /\ db_type conf = backend_kind_name b
    /\ support_matrix r b = Some cls.
Proof.
  rewrite watcher_factory_matrix_entry. unfold matrix_entry.
  destruct (parse_report_kind (type conf)) as [r|] eqn:Hr; [|discriminate].
  destruct (parse_backend_kind (db_type conf)) as [b|] eqn:Hb; [|discriminate].
  destruct (support_matrix r b) as [cls'|] eqn:Hm; [|discriminate].
  intros [= <-]. exists r, b.
  by rewrite (parse_report_kind_name _ _ Hr), (parse_backend_kind_name _ _ Hb).
Qed.

(** No class is entered twice in [WATCHER_TYPES]: two configurations that
    resolve to the same class have the same [type] and the same [db_type]. *)
Theorem watcher_factory_class_determines_pair
    (conf conf' : GaugeConf) (cls : watcher_class) :
  watcher_factory conf = Ok cls ->
  watcher_factory conf' = Ok cls ->
  type conf = type conf' /\ db_type conf = db_type conf'.
Proof.
  intros (r & b & -> & -> & Hm)%watcher_factory_resolved
         (r' & b' & -> & -> & Hm')%watcher_factory_resolved.
  destruct r, b; simplify_eq/=; destruct r', b'; by simplify_eq/=.
Qed.

Lemma watcher_factory_class_determines_pair_witness :
  let conf := mkConf "flow_table" "influx" None false in
  let conf' := mkConf "flow_table" "influx" (Some "flows.gz") true in
  watcher_factory conf = Ok GaugeFlowTableInfluxDBLogger
  /\ watcher_factory conf' = Ok GaugeFlowTableInfluxDBLogger
  /\ type conf = type conf' /\ db_type conf = db_type conf'.
Proof.
  intros conf conf'.
  refine (conj eq_refl (conj eq_refl _)).
  exact (watcher_factory_class_determines_pair conf conf'
           GaugeFlowTableInfluxDBLogger eq_refl eq_refl).
Defined.

(** ** Port-State Sink: the message tells the event *)

Lemma render_port_prefix (p q : Z) (r1 r2 : string) :
  "port " +:+ str p +:+ String " " r1 = "port " +:+ str q +:+ String " " r2 ->
  p = q /\ r1 = r2.
Proof.
  intros H. apply (inj (String.app "port ")) in H.
  apply split_at in H as [Hpq Hr]; try apply str_lacks_space.
  split; [by apply str_inj | done].
Qed.

(** The rendered message determines the port number and the event: two
    port status messages that render to the same text have the same port
    number and the same reason, and for reason modify the same link-down
    bit. *)
Theorem port_state_render_inj (msg msg' : OFPPortStatus.t) :
  PortStateLogger.render msg = PortStateLogger.render msg' ->
  OFPPort.port_no (OFPPortStatus.desc msg) = OFPPort.port_no (OFPPortStatus.desc msg')
  /\ OFPPortStatus.reason msg = OFPPortStatus.reason msg'
  /\ (OFPPortStatus.reason msg = ofp.OFPPR_MODIFY ->
      Z.testbit (OFPPort.state (OFPPortStatus.desc msg)) 0
      = Z.testbit (OFPPort.state (OFPPortStatus.desc msg')) 0).
Proof.
  destruct msg as [r [p s]], msg' as [r' [p' s']].
  unfold PortStateLogger.render.
  cbn [OFPPortStatus.reason OFPPortStatus.desc OFPPort.port_no OFPPort.state].
  rewrite !land_link_down.
  unfold ofp.OFPPR_ADD, ofp.OFPPR_DELETE, ofp.OFPPR_MODIFY.
  destruct (Z.eqb_spec r 0) as [->|Ha];
    [|destruct (Z.eqb_spec r 1) as [->|Hd];
      [|destruct (Z.eqb_spec r 2) as [->|Hm];
        [destruct (Z.testbit s 0) eqn:Hs|]]];
  (destruct (Z.eqb_spec r' 0) as [->|Ha'];
    [|destruct (Z.eqb_spec r' 1) as [->|Hd'];
      [|destruct (Z.eqb_spec r' 2) as [->|Hm'];
        [destruct (Z.testbit s' 0) eqn:Hs'|]]]);
  intros [-> Hrest]%render_port_prefix;
  first [ discriminate Hrest
        | apply (inj (String.app "unknown state ")), str_inj in Hrest as ->;
          repeat split; congruence
        | repeat split; intros; congruence ].
Qed.

Lemma port_state_render_inj_witness :
  let msg := OFPPortStatus.mk 2 (OFPPort.mk 3 5) in
  let msg' := OFPPortStatus.mk 2 (OFPPort.mk 3 7) in
  PortStateLogger.render msg = PortStateLogger.render msg'
  /\ 3 = 3 /\ 2 = 2
  /\ (2 = ofp.OFPPR_MODIFY -> Z.testbit 5 0 = Z.testbit 7 0).
Proof.
  intros msg msg'. split; [reflexivity|].
  exact (port_state_render_inj msg msg' eq_refl).
Defined.

(** ** Meter-Stats Sink: empty bands, stat names, series names *)

Section MeterStatsMore.

Variable formatted : Type.
Variable _format_stats : string -> list (list string * Z) -> formatted.

(** [_format_stat_pairs] raises exactly when the meter has no band, and
    then it is the [IndexError] of [band_stats[0]]; the formatter is not
    reached. With a band it returns. *)
Theorem meter_format_stat_pairs_raises (delim : string) (stat : OFPMeterStats.t) :
  (OFPMeterStats.band_stats stat = [] <->
     MeterStatsLogger._format_stat_pairs formatted _format_stats delim stat
     = Raise IndexError)
  /\ (OFPMeterStats.band_stats stat <> [] <->
        exists out : formatted,
          MeterStatsLogger._format_stat_pairs formatted _format_stats delim stat
          = Ok out)
  /\ (forall e : exn,
        MeterStatsLogger._format_stat_pairs formatted _format_stats delim stat
        = Raise e -> e = IndexError).
Proof.
  unfold MeterStatsLogger._format_stat_pairs, MeterStatsLogger.stat_pairs.
  destruct (OFPMeterStats.band_stats stat) as [|band others]; cbn.
  - refine (conj _ (conj _ _)).
    + by split.
    + split; [done | by intros [out Hout]].
    + by intros e [= <-].
  - refine (conj _ (conj _ _)).
    + by split.
    + split; [by eexists | done].
    + discriminate.
Qed.

End MeterStatsMore.

Lemma meter_format_stat_pairs_raises_witness :
  MeterStatsLogger._format_stat_pairs _ Sample._format_stats "."
    (OFPMeterStats.mk 1 5 10 100 []) = Raise IndexError.
Proof.
  apply (proj1 (meter_format_stat_pairs_raises _ Sample._format_stats "."
                  (OFPMeterStats.mk 1 5 10 100 []))).
  reflexivity.
Defined.

(** Whatever the delimiter, the five stat names of a meter are pairwise
    different once their segments are joined. *)
Theorem meter_stat_names_distinct
    (delim : string) (stat : OFPMeterStats.t) (pairs : list (list string * Z)) :
  MeterStatsLogger.stat_pairs stat = Ok pairs ->
  NoDup (map (fun p => join delim (fst p)) pairs).
Proof.
  unfold MeterStatsLogger.stat_pairs.
  destruct (OFPMeterStats.band_stats stat) as [|band others]; [discriminate|].
  intros [= <-]. cbn [map fst join Py.bind Py.first].
  repeat (apply NoDup_cons; split;
          [rewrite ?elem_of_cons, elem_of_nil; intros H;
           repeat (destruct H as [H|H]; [by peel H|]); done|]).
  apply NoDup_nil_2.
Qed.

Lemma meter_stat_names_distinct_witness :
  NoDup ["flow_count"; "byte_in_count"; "packet_in_count"; "byte_band_count";
         "packet_band_count"].
Proof.
  exact (meter_stat_names_distinct "_"
           (OFPMeterStats.mk 1 5 10 100 [OFPMeterBandStats.mk 4 50])
           _ eq_refl).
Defined.

(** [str] never writes the empty text, and a hyphen only in front of a
    negative number. *)
Lemma pretty_N_go_nonempty (x : N) (s : string) :
  s <> "" -> pretty_N_go x s <> "".
Proof.
  revert s. induction (N.lt_wf_0 x) as [x _ IH]; intros s Hs.
  assert (x = 0 \/ 0 < x)%N as [->|Hpos] by lia.
  - by rewrite pretty_N_go_0.
  - rewrite pretty_N_go_step by done. apply IH; [by apply N.div_lt | done].
Qed.

Lemma pretty_positive_digits (p : positive) :
  exists (x : ascii) (rest : string),
    pretty p = String x rest /\ x <> "-"%char /\ lacks "-" rest = true.
Proof.
  assert (lacks "-" (pretty p) = true) as Hl.
  { apply (str_lacks "-" (Z.pos p)); [apply digit_not_hyphen | lia]. }
  assert (pretty p <> "") as Hne.
  { unfold pretty, pretty_positive, pretty, pretty_N.
    destruct (decide (N.pos p = 0%N)); [lia|].
    rewrite pretty_N_go_step by lia. by apply pretty_N_go_nonempty. }
  destruct (pretty p) as [|x rest]; [done|].
  cbn [lacks] in Hl. apply andb_true_iff in Hl as [Hx Hrest].
  exists x, rest. repeat split; [|done].
  by apply negb_true_iff, Ascii.eqb_neq in Hx.
Qed.

(** A number followed by a hyphen and a rest: equal wholes have equal
    numbers and equal rests, whatever the signs. *)
Lemma str_hyphen_split (n m : Z) (r1 r2 : string) :
  str n +:+ String "-" r1 = str m +:+ String "-" r2 -> n = m /\ r1 = r2.
Proof.
  assert (forall k : Z, 0 <= k ->
            exists x rest, str k = String x rest /\ x <> "-"%char
                           /\ lacks "-" (str k) = true) as Hnonneg.
  { intros k Hk.
    assert (lacks "-" (str k) = true) as Hl
      by (apply str_lacks; [apply digit_not_hyphen | done]).
    destruct k as [|p|p]; [| |lia].
    - exists "0"%char, "". by repeat split.
    - destruct (pretty_positive_digits p) as (x & rest & Hp & Hx & _).
      exists x, rest. by repeat split. }
  assert (forall p : positive, str (Z.neg p) = String "-" (str (Z.pos p))) as Hneg.
  { done. }
  intros H.
  destruct (Z.le_gt_cases 0 n) as [Hn|Hn], (Z.le_gt_cases 0 m) as [Hm|Hm].
  - destruct (Hnonneg n Hn) as (_ & _ & _ & _ & Hln).
    destruct (Hnonneg m Hm) as (_ & _ & _ & _ & Hlm).
    apply split_at in H as [Hs ->]; [|done..]. split; [by apply str_inj | done].
  - destruct (Hnonneg n Hn) as (x & rest & Hx & Hne & _).
    destruct m as [| |p]; [lia..|].
    rewrite Hx, Hneg, !append_cons in H. by injection H as -> _.
  - destruct (Hnonneg m Hm) as (x & rest & Hx & Hne & _).
    destruct n as [| |p]; [lia..|].
    rewrite Hx, Hneg, !append_cons in H. by injection H as <- _.
  - destruct n as [| |p]; [lia..|]. destruct m as [| |q]; [lia..|].
    rewrite !Hneg, !append_cons in H. injection H as H.
    destruct (Hnonneg (Z.pos p) ltac:(lia)) as (_ & _ & _ & _ & Hlp).
    destruct (Hnonneg (Z.pos q) ltac:(lia)) as (_ & _ & _ & _ & Hlq).
    apply split_at in H as [Hs ->]; [|done..].
    apply (inj pretty) in Hs. split; [congruence | done].
Qed.

(** For one datapath, the series name of the Meter-Stats Sink determines
    the meter and the counter: equal names come from equal meter ids and
    equal counter names. *)
Theorem meter_dp_stat_name_inj
    (self : Gauge) (stat stat' : OFPMeterStats.t) (stat_name stat_name' : string) :
  MeterStatsLogger._dp_stat_name self stat stat_name
  = MeterStatsLogger._dp_stat_name self stat' stat_name' ->
  OFPMeterStats.meter_id stat = OFPMeterStats.meter_id stat'
  /\ stat_name = stat_name'.
Proof.
  unfold MeterStatsLogger._dp_stat_name. cbn [join].
  intros H. apply (inj (String.app (name (dp self)))) in H.
  apply (inj (String.app "-")) in H.
  by apply str_hyphen_split in H.
Qed.

Lemma meter_dp_stat_name_inj_witness :
  let self := mkGauge Sample.dp1 (mkConf "meter_stats" "text" None false) in
  MeterStatsLogger._dp_stat_name self (OFPMeterStats.mk 12 0 0 0 []) "flow_count"
  = MeterStatsLogger._dp_stat_name self (OFPMeterStats.mk 12 5 10 100 []) "flow_count"
  /\ 12 = 12 /\ "flow_count" = "flow_count".
Proof.
  intros self. split; [reflexivity|].
  exact (meter_dp_stat_name_inj self (OFPMeterStats.mk 12 0 0 0 [])
           (OFPMeterStats.mk 12 5 10 100 []) "flow_count" "flow_count" eq_refl).
Defined.

(** ** Port-Stats Sink: when the series name tells the port and the counter *)

Lemma lacks_append_char (c : ascii) (a b : string) :
  lacks c (a +:+ String c b) = false.
Proof.
  induction a as [|x a IH].
  - change (lacks c (String c b) = false). cbn [lacks].
    by rewrite Ascii.eqb_refl.
  - rewrite append_cons. cbn [lacks]. by rewrite IH, andb_false_r.
Qed.

(** Two texts, each followed by [c] and a rest that avoids [c]: equal
    wholes have equal parts. *)
Lemma split_at_last (c : ascii) (a b r1 r2 : string) :
  lacks c r1 = true -> lacks c r2 = true ->
  a +:+ String c r1 = b +:+ String c r2 ->
  a = b /\ r1 = r2.
Proof.
  intros H1 H2. revert b. induction a as [|x a IH]; intros [|y b] H.
  - injection H as ->. by split.
  - rewrite append_cons in H. injection H as _ H.
    rewrite H, lacks_append_char in H1. discriminate.
  - rewrite append_cons in H. injection H as _ H.
    rewrite <- H, lacks_append_char in H2. discriminate.
  - rewrite !append_cons in H. injection H as -> H.
    destruct (IH b H) as [-> ->]. by split.
Qed.

Lemma port_stats_name_ok (self : Gauge) (stat : OFPPortStats.t) (stat_name s : string) :
  PortStatsLogger._dp_stat_name self stat stat_name = Ok s ->
  exists port_label : string,
    (labels <- port_labels (dp self) (OFPPortStats.port_no stat) ;;
     getitem labels "port") = Ok port_label
    /\ s = name (dp self) +:+ "-" +:+ port_label +:+ "-" +:+ stat_name.
Proof.
  unfold PortStatsLogger._dp_stat_name, getitem.
  destruct (port_labels _ _) as [labels|e]; [|discriminate]. cbn [Py.bind].
  destruct (labels !! "port") as [l|]; [|discriminate].
  intros [= <-]. by exists l.
Qed.

(** For one datapath and counter names without a hyphen, the series name
    of the Port-Stats Sink determines the port label and the counter; with
    a hyphen in a counter name two different ports can get one name. *)
Theorem port_stats_name_inj :
  (forall (self : Gauge) (stat stat' : OFPPortStats.t)
          (stat_name stat_name' s : string),
     lacks "-" stat_name = true -> lacks "-" stat_name' = true ->
     PortStatsLogger._dp_stat_name self stat stat_name = Ok s ->
     PortStatsLogger._dp_stat_name self stat' stat_name' = Ok s ->
     stat_name = stat_name'
     /\ (labels <- port_labels (dp self) (OFPPortStats.port_no stat) ;;
         getitem labels "port")
        = (labels <- port_labels (dp self) (OFPPortStats.port_no stat') ;;
           getitem labels "port"))
  /\ (exists (self : Gauge) (s : string),
        PortStatsLogger._dp_stat_name self (OFPPortStats.mk 1) "in-bytes" = Ok s
        /\ PortStatsLogger._dp_stat_name self (OFPPortStats.mk 2) "bytes" = Ok s).
Proof.
  split.
  - intros self stat stat' n n' s Hn Hn'
           (l & Hl & ->)%port_stats_name_ok (l' & Hl' & H)%port_stats_name_ok.
    rewrite Hl, Hl'.
    apply (inj (String.app (name (dp self)))), (inj (String.app "-")) in H.
    apply (split_at_last "-" l l' n n' Hn Hn') in H as [-> ->]. by split.
  - exists (mkGauge (mkDP 1 "sw1"
                       (fun p => Ok {[ "port" := if Z.eqb p 1 then "up" else "up-in" ]}))
                    (mkConf "port_stats" "text" None false)).
    by eexists.
Qed.

Lemma port_stats_name_inj_witness :
  let self := mkGauge Sample.dp1 (mkConf "port_stats" "text" None false) in
  PortStatsLogger._dp_stat_name self (OFPPortStats.mk 7) "bytes_in" = Ok "sw1-p7-bytes_in"
  /\ "bytes_in" = "bytes_in"
  /\ (labels <- port_labels (dp self) 7 ;; getitem labels "port")
     = (labels <- port_labels (dp self) 7 ;; getitem labels "port").
Proof.
  intros self. split; [reflexivity|].
  exact (proj1 port_stats_name_inj self (OFPPortStats.mk 7) (OFPPortStats.mk 7)
           "bytes_in" "bytes_in" "sw1-p7-bytes_in" eq_refl eq_refl eq_refl eq_refl).
Defined.

(** ** Appending: what stays as it was *)

(** An append that raises has changed nothing, and the exception tells why
    the file could not be opened. *)
Lemma append_bytes_raises (filename : option string) (data : string) (w w' : World)
    (e : exn) :
  append_bytes filename data w = (Raise e, w') ->
  w' = w
  /\ ((filename = None /\ e = TypeError)
      \/ (filename = Some "" /\ e = FileNotFoundError "")
      \/ (exists path : string,
            filename = Some path /\ path <> "" /\ path ∈ unwritable w
            /\ e = PermissionError path)).
Proof.
  unfold append_bytes. destruct filename as [path|].
  - destruct (String.eqb_spec path "") as [->|Hne].
    + intros [= <- <-]. split; [done|]. right. by left.
    + destruct (decide (path ∈ unwritable w)); [|discriminate].
      intros [= <- <-]. split; [done|]. right. right. by exists path.
  - intros [= <- <-]. split; [done|]. by left.
Qed.

(** Whatever an append does, the log and the refused paths stay, every
    other file stays, and what a file held before is still the beginning
    of what it holds after. *)
Lemma append_bytes_frame (filename : option string) (data : string) (w : World) :
  let run := append_bytes filename data w in
  log (snd run) = log w
  /\ unwritable (snd run) = unwritable w
  /\ (forall other : string,
        filename <> Some other -> files (snd run) !! other = files w !! other)
  /\ (forall path : string,
        exists suffix : string,
          contents (files (snd run)) path = contents (files w) path +:+ suffix).
Proof.
  intros run.
  destruct (append_bytes filename data w) as [[[]|e] w'] eqn:Hrun; subst run.
  - apply append_bytes_returns in Hrun as Hpath.
    destruct Hpath as (path & -> & Hne & Hw).
    rewrite (append_bytes_ok path data w Hne Hw) in Hrun.
    injection Hrun as <-. cbn [snd files unwritable log].
    refine (conj eq_refl (conj eq_refl (conj _ _))).
    + intros other Hother. rewrite lookup_insert_ne; [done | congruence].
    + intros p. unfold contents. destruct (decide (path = p)) as [->|Hp].
      * rewrite lookup_insert_eq. by exists data.
      * rewrite lookup_insert_ne by done. exists "". by rewrite append_empty_r.
  - apply append_bytes_raises in Hrun as [-> _]. cbn [snd].
    refine (conj eq_refl (conj eq_refl (conj (fun _ _ => eq_refl) _))).
    intros p. exists "". by rewrite append_empty_r.
Qed.

(** ** Flow-Table Sink: one update and a run of updates *)

Section FlowTableRuns.

Variable rcv_time_t : Type.
Variable _rcv_time : rcv_time_t -> string.
Variable dumps : json -> string.
Variable gz : string -> string.

Local Abbreviation flow_update :=
  (FlowTableLogger._update rcv_time_t _rcv_time dumps gz).
Local Abbreviation flow_updates :=
  (FlowTableLogger.updates rcv_time_t _rcv_time dumps gz).
Local Abbreviation document :=
  (FlowTableLogger.outstr rcv_time_t _rcv_time dumps).

(** The bytes one call writes. *)
Local Abbreviation written self call :=
  (if compress (conf self) then gz (document self (fst call) (snd call))
   else document self (fst call) (snd call)).

Lemma flow_update_append (self : Gauge) (rcv_time : rcv_time_t)
    (msg : OFPFlowStatsReply.t) :
  flow_update self rcv_time msg
  = append_bytes (file (conf self)) (written self (rcv_time, msg)).
Proof.
  unfold FlowTableLogger._update, gzip_open_at_write, open_a_write. cbn [fst snd].
  by destruct (compress (conf self)).
Qed.

(** The Flow-Table Sink's update never logs, touches no file but the
    configured one and only ever adds at the end of that file; when the
    open is refused, for want of a path or by the operating system, it
    raises and leaves the world as it was. *)
Theorem flow_table_update_frame
    (self : Gauge) (rcv_time : rcv_time_t) (msg : OFPFlowStatsReply.t) (w : World) :
  let run := flow_update self rcv_time msg w in
  log (snd run) = log w
  /\ unwritable (snd run) = unwritable w
  /\ (forall other : string,
        file (conf self) <> Some other -> files (snd run) !! other = files w !! other)
  /\ (forall path : string,
        exists suffix : string,
          contents (files (snd run)) path = contents (files w) path +:+ suffix)
  /\ (file (conf self) = None
      \/ file (conf self) = Some ""
      \/ (exists path : string,
            file (conf self) = Some path /\ path ∈ unwritable w) ->
      exists e : exn, run = (Raise e, w)).
Proof.
  intros run. subst run. rewrite flow_update_append.
  destruct (append_bytes_frame (file (conf self)) (written self (rcv_time, msg)) w)
    as (Hlog & Hunw & Hother & Hprefix).
  refine (conj Hlog (conj Hunw (conj Hother (conj Hprefix _)))).
  unfold append_bytes.
  intros [->|[->|(path & -> & Hrefused)]].
  - by eexists.
  - by eexists.
  - destruct (String.eqb path ""); [by eexists|].
    destruct (decide (path ∈ unwritable w)); [by eexists | done].
Qed.

(** A run of updates on a file that can be opened. *)
Lemma flow_updates_ok (calls : list (rcv_time_t * OFPFlowStatsReply.t))
    (self : Gauge) (path : string) (w : World) :
  file (conf self) = Some path -> path <> "" -> path ∉ unwritable w ->
  let run := flow_updates self calls w in
  fst run = Ok tt
  /\ contents (files (snd run)) path
     = contents (files w) path +:+ concat_texts (map (fun call => written self call) calls)
  /\ (forall other : string, other <> path -> files (snd run) !! other = files w !! other)
  /\ unwritable (snd run) = unwritable w
  /\ log (snd run) = log w.
Proof.
  intros Hfile Hne. revert w.
  induction calls as [|[rcv_time msg] rest IH]; intros w Hw run; subst run.
  - cbn. by rewrite append_empty_r.
  - cbn [FlowTableLogger.updates]. unfold IO.bind.
    rewrite flow_update_append, Hfile, (append_bytes_ok path _ w Hne Hw).
    set (w1 := mkWorld _ _ _).
    destruct (IH w1 Hw) as (Hres & Hcontent & Hother & Hunw & Hlog).
    refine (conj Hres (conj _ (conj _ (conj Hunw Hlog)))).
    + rewrite Hcontent. unfold w1, contents. cbn [files].
      rewrite lookup_insert_eq. cbn [default map]. unfold id.
      by rewrite append_assoc.
    + intros other Hneq. rewrite (Hother other Hneq). unfold w1. cbn [files].
      by rewrite lookup_insert_ne.
Qed.

(** Without compression, a run of updates on a file that can be opened
    returns and leaves in the file what it held, followed by one document
    for each call in the order of the calls; nothing else changes. *)
Theorem flow_table_updates_plain
    (calls : list (rcv_time_t * OFPFlowStatsReply.t))
    (self : Gauge) (path : string) (w : World) :
  file (conf self) = Some path -> path <> "" -> path ∉ unwritable w ->
  compress (conf self) = false ->
  let run := flow_updates self calls w in
  fst run = Ok tt
  /\ contents (files (snd run)) path
     = contents (files w) path
       +:+ concat_texts (map (fun call => document self (fst call) (snd call)) calls)
  /\ (forall other : string, other <> path -> files (snd run) !! other = files w !! other)
  /\ unwritable (snd run) = unwritable w
  /\ log (snd run) = log w.
Proof.
  intros Hfile Hne Hw Hc.
  pose proof (flow_updates_ok calls self path w Hfile Hne Hw) as H.
  by rewrite Hc in H.
Qed.


End FlowTableRuns.

Lemma flow_table_update_frame_witness :
  let self := mkGauge Sample.dp1 (mkConf "flow_table" "text" (Some "flows") true) in
  let w := mkWorld {[ "flows" := "old"; "other" := "x" ]} {[ "flows" ]} [] in
  let run := FlowTableLogger._update Z Sample._rcv_time Sample.dumps Sample.gz self 17
               (OFPFlowStatsReply.mk (JArray [])) w in
  (exists path : string, file (conf self) = Some path /\ path ∈ unwritable w)
  /\ exists e : exn, run = (Raise e, w).
Proof.
  intros self w run.
  assert (exists path : string, file (conf self) = Some path /\ path ∈ unwritable w)
    as Hrefused.
  { exists "flows". split; [reflexivity|].
    unfold w. cbn [unwritable]. by apply elem_of_singleton_2. }
  split; [exact Hrefused|].
  destruct (flow_table_update_frame Z Sample._rcv_time Sample.dumps Sample.gz self 17
              (OFPFlowStatsReply.mk (JArray [])) w) as (_ & _ & _ & _ & Hsame).
  exact (Hsame (or_intror (or_intror Hrefused))).
Defined.

Lemma flow_table_updates_plain_witness :
  let self := mkGauge Sample.dp1 (mkConf "flow_table" "text" (Some "flows") false) in
  let w := mkWorld {[ "flows" := "old" +:+ LF ]} ∅ [] in
  let calls := [ (17, OFPFlowStatsReply.mk (JArray [JNumber 1]));
                 (18, OFPFlowStatsReply.mk (JArray [])) ] in
  let run := FlowTableLogger.updates Z Sample._rcv_time Sample.dumps Sample.gz
               self calls w in
  fst run = Ok tt
  /\ contents (files (snd run)) "flows"
     = ("old" +:+ LF)
       +:+ concat_texts
             [ FlowTableLogger.outstr Z Sample._rcv_time Sample.dumps self 17
                 (OFPFlowStatsReply.mk (JArray [JNumber 1]));
               FlowTableLogger.outstr Z Sample._rcv_time Sample.dumps self 18
                 (OFPFlowStatsReply.mk (JArray [])) ].
Proof.
  intros self w calls run.
  destruct (flow_table_updates_plain Z Sample._rcv_time Sample.dumps Sample.gz
              calls self "flows" w eq_refl ltac:(discriminate)
              ltac:(apply not_elem_of_empty) eq_refl) as (Hres & Hcontent & _).
  exact (conj Hres Hcontent).
Defined.


(** ** Flow-Table Sink: compressed and plain output *)

Section Compression.

Variable rcv_time_t : Type.
Variable _rcv_time : rcv_time_t -> string.
Variable dumps : json -> string.
Variable gz : string -> string.
Variable gunzip : string -> option string.

(** What the sinks need of gzip: a file is a sequence of members, and one
    more member at the end adds its text at the end of what is read. *)
Hypothesis gunzip_member : forall stream text data : string,
  gunzip stream = Some text -> gunzip (stream +:+ gz data) = Some (text +:+ data).

Local Abbreviation flow_updates :=
  (FlowTableLogger.updates rcv_time_t _rcv_time dumps gz).

(** One write through gzip against the same write in plain. *)
Lemma append_bytes_gunzips_to (path data : string) (wz wp : World) :
  gunzips_to gunzip path wz wp ->
  fst (append_bytes (Some path) (gz data) wz) = fst (append_bytes (Some path) data wp)
  /\ gunzips_to gunzip path (snd (append_bytes (Some path) (gz data) wz))
                            (snd (append_bytes (Some path) data wp)).
Proof.
  intros (Hread & Hsome & Hother & Hunw & Hlog). unfold append_bytes.
  destruct (String.eqb path "").
  { by repeat split; try apply Hsome. }
  rewrite Hunw.
  destruct (decide (path ∈ unwritable wp)).
  { by repeat split; try apply Hsome. }
  cbn [fst snd]. split; [reflexivity|].
  unfold gunzips_to, contents. cbn [files unwritable log].
  rewrite !lookup_insert_eq. cbn [default].
  refine (conj _ (conj _ (conj _ (conj eq_refl Hlog)))).
  - by apply gunzip_member.
  - split; eauto.
  - intros other Hne. rewrite !lookup_insert_ne by congruence. by apply Hother.
Qed.

(** C7: the same sequence of update calls, made once with [compress] set
    and once without it on the same datapath and file path, ends the same
    way, and the file written with compression reads back through gunzip
    as exactly the file written without; this holds from any pair of
    worlds that already match in this way, an absent or empty file in
    both among them. When the file can be opened both runs return, and
    each call has put its record at the end of the file: the record
    itself without compression, one gzip member holding the same record
    with it. *)
Theorem flow_table_compressed_reads_back
    (calls : list (rcv_time_t * OFPFlowStatsReply.t))
    (self_z self_p : Gauge) (path : string) (wz wp : World) :
  dp self_z = dp self_p ->
  file (conf self_z) = Some path ->
  file (conf self_p) = Some path ->
  compress (conf self_z) = true ->
  compress (conf self_p) = false ->
  gunzips_to gunzip path wz wp ->
  let run_z := flow_updates self_z calls wz in
  let run_p := flow_updates self_p calls wp in
  let records :=
    map (fun call =>
           FlowTableLogger.outstr rcv_time_t _rcv_time dumps self_p
             (fst call) (snd call)) calls in
  fst run_z = fst run_p
  /\ gunzips_to gunzip path (snd run_z) (snd run_p)
  /\ gunzip (contents (files (snd run_z)) path)
     = Some (contents (files (snd run_p)) path)
  /\ (path <> "" -> path ∉ unwritable wp ->
      fst run_p = Ok tt
      /\ contents (files (snd run_p)) path
         = contents (files wp) path +:+ concat_texts records
      /\ contents (files (snd run_z)) path
         = contents (files wz) path +:+ concat_texts (map gz records)).
Proof.
  intros Hdp Hfz Hfp Hcz Hcp.
  enough (forall wz wp, gunzips_to gunzip path wz wp ->
            fst (flow_updates self_z calls wz) = fst (flow_updates self_p calls wp)
            /\ gunzips_to gunzip path (snd (flow_updates self_z calls wz))
                                      (snd (flow_updates self_p calls wp))) as Hsim.
  { intros Hrel run_z run_p records. destruct (Hsim wz wp Hrel) as [Hres Hrel'].
    refine (conj Hres (conj Hrel' (conj _ _))); [apply Hrel'|].
    intros Hne Hwp.
    assert (path ∉ unwritable wz) as Hwz.
    { destruct Hrel as (_ & _ & _ & Hunw & _). by rewrite Hunw. }
    destruct (flow_updates_ok rcv_time_t _rcv_time dumps gz calls self_p path wp
                Hfp Hne Hwp) as (Hok & Hplain & _).
    destruct (flow_updates_ok rcv_time_t _rcv_time dumps gz calls self_z path wz
                Hfz Hne Hwz) as (_ & Hgz & _).
    rewrite Hcp in Hplain. rewrite Hcz in Hgz.
    refine (conj Hok (conj Hplain _)).
    subst run_z records. rewrite Hgz, List.map_map.
    unfold FlowTableLogger.outstr, FlowTableLogger.jsondict. by rewrite Hdp. }
  clear wz wp.
  induction calls as [|[rcv_time msg] rest IH]; intros wz wp Hrel.
  - by split.
  - cbn [FlowTableLogger.updates]. unfold IO.bind.
    unfold FlowTableLogger._update, gzip_open_at_write, open_a_write.
    rewrite Hfz, Hfp, Hcz, Hcp.
    assert (FlowTableLogger.outstr rcv_time_t _rcv_time dumps self_z rcv_time msg
            = FlowTableLogger.outstr rcv_time_t _rcv_time dumps self_p rcv_time msg)
      as Hout.
    { unfold FlowTableLogger.outstr, FlowTableLogger.jsondict. by rewrite Hdp. }
    rewrite Hout.
    destruct (append_bytes_gunzips_to path
                (FlowTableLogger.outstr rcv_time_t _rcv_time dumps self_p rcv_time msg)
                wz wp Hrel) as [Hres Hstep].
    destruct (append_bytes (Some path) (gz _) wz) as [rz wz'].
    destruct (append_bytes (Some path) _ wp) as [rp wp'].
    cbn [fst snd] in Hres, Hstep. subst rp.
    destruct rz as [[]|e]; [by apply IH | by split].
Qed.

End Compression.

(** The sample codec is a gzip in the sense above. *)
Lemma sample_gunzip_gz (data : string) :
  Sample.gunzip_from false (Sample.gz data) = Some data.
Proof.
  induction data as [|c data IH]; [reflexivity|].
  cbn [Sample.gz Sample.gunzip_from]. change (Ascii.eqb "1" "0") with false.
  change (Ascii.eqb "1" "1") with true. cbn iota. by rewrite IH.
Qed.

Lemma sample_gunzip_from_member (stream : string) :
  forall (literal : bool) (text data : string),
    Sample.gunzip_from literal stream = Some text ->
    Sample.gunzip_from literal (stream +:+ Sample.gz data) = Some (text +:+ data).
Proof.
  induction stream as [|c stream IH]; intros literal text data.
  - destruct literal; [discriminate|]. intros [= <-]. apply sample_gunzip_gz.
  - rewrite append_cons. cbn [Sample.gunzip_from]. destruct literal.
    + destruct (Sample.gunzip_from false stream) as [t|] eqn:Ht; [|discriminate].
      intros [= <-]. by rewrite (IH false t data Ht).
    + destruct (Ascii.eqb c "0"); [by apply IH|].
      destruct (Ascii.eqb c "1"); [by apply IH | discriminate].
Qed.

Lemma sample_gunzip_member (stream text data : string) :
  Sample.gunzip stream = Some text ->
  Sample.gunzip (stream +:+ Sample.gz data) = Some (text +:+ data).
Proof. apply sample_gunzip_from_member. Qed.

Lemma flow_table_compressed_reads_back_witness :
  let self_z := mkGauge Sample.dp1 (mkConf "flow_table" "text" (Some "flows") true) in
  let self_p := mkGauge Sample.dp1 (mkConf "flow_table" "text" (Some "flows") false) in
  let calls := [ (17, OFPFlowStatsReply.mk (JArray [JNumber 1]));
                 (18, OFPFlowStatsReply.mk (JArray [])) ] in
  let run_z := FlowTableLogger.updates Z Sample._rcv_time Sample.dumps Sample.gz
                 self_z calls Sample.world0 in
  let run_p := FlowTableLogger.updates Z Sample._rcv_time Sample.dumps Sample.gz
                 self_p calls Sample.world0 in
  let records :=
    [ FlowTableLogger.outstr Z Sample._rcv_time Sample.dumps self_p 17
        (OFPFlowStatsReply.mk (JArray [JNumber 1]));
      FlowTableLogger.outstr Z Sample._rcv_time Sample.dumps self_p 18
        (OFPFlowStatsReply.mk (JArray [])) ] in
  gunzips_to Sample.gunzip "flows" Sample.world0 Sample.world0
  /\ fst run_z = fst run_p
  /\ gunzips_to Sample.gunzip "flows" (snd run_z) (snd run_p)
  /\ Sample.gunzip (contents (files (snd run_z)) "flows")
     = Some (contents (files (snd run_p)) "flows")
  /\ fst run_p = Ok tt
  /\ contents (files (snd run_p)) "flows" = "" +:+ concat_texts records
  /\ contents (files (snd run_z)) "flows"
     = "" +:+ concat_texts (map Sample.gz records).
Proof.
  intros self_z self_p calls run_z run_p records.
  assert (gunzips_to Sample.gunzip "flows" Sample.world0 Sample.world0) as Hstart.
  { by repeat split. }
  split; [exact Hstart|].
  destruct (flow_table_compressed_reads_back Z Sample._rcv_time Sample.dumps Sample.gz
              Sample.gunzip sample_gunzip_member calls self_z self_p "flows"
              Sample.world0 Sample.world0 eq_refl eq_refl eq_refl eq_refl eq_refl Hstart)
    as (Hres & Hrel & Hread & Hwritten).
  refine (conj Hres (conj Hrel (conj Hread _))).
  exact (Hwritten ltac:(discriminate) ltac:(apply not_elem_of_empty)).
Defined.

Section CompressedRuns.

Variable rcv_time_t : Type.
Variable _rcv_time : rcv_time_t -> string.
Variable dumps : json -> string.
Variable gz : string -> string.
Variable gunzip : string -> option string.

Hypothesis gunzip_member : forall stream text data : string,
  gunzip stream = Some text -> gunzip (stream +:+ gz data) = Some (text +:+ data).

(** Members written one after the other read back as their texts one
    after the other. *)
Lemma gunzip_members {A : Type} (f : A -> string) (items : list A) :
  forall stream text : string,
    gunzip stream = Some text ->
    gunzip (stream +:+ concat_texts (map (fun item => gz (f item)) items))
    = Some (text +:+ concat_texts (map f items)).
Proof.
  induction items as [|item items IH]; intros stream text Hread.
  - cbn. by rewrite !append_empty_r.
  - cbn [map]. unfold concat_texts. cbn [foldr]. fold (concat_texts (map f items)).
    fold (concat_texts (map (fun item => gz (f item)) items)).
    rewrite <- !append_assoc. apply IH. by apply gunzip_member.
Qed.

(** With compression, a run of updates on a file that can be opened and
    that reads back as some text returns, and the file then reads back as
    that text followed by one document for each call, in the order of the
    calls. *)
Theorem flow_table_updates_compressed
    (calls : list (rcv_time_t * OFPFlowStatsReply.t))
    (self : Gauge) (path text : string) (w : World) :
  file (conf self) = Some path -> path <> "" -> path ∉ unwritable w ->
  compress (conf self) = true ->
  gunzip (contents (files w) path) = Some text ->
  let run := FlowTableLogger.updates rcv_time_t _rcv_time dumps gz self calls w in
  fst run = Ok tt
  /\ gunzip (contents (files (snd run)) path)
     = Some (text +:+ concat_texts
                        (map (fun call =>
                                FlowTableLogger.outstr rcv_time_t _rcv_time dumps self
                                  (fst call) (snd call)) calls)).
Proof.
  intros Hfile Hne Hw Hc Hread run.
  destruct (flow_updates_ok rcv_time_t _rcv_time dumps gz calls self path w
              Hfile Hne Hw) as (Hres & Hcontent & _).
  split; [exact Hres|].
  subst run. rewrite Hcontent, Hc.
  by apply (gunzip_members
              (fun call => FlowTableLogger.outstr rcv_time_t _rcv_time dumps self
                             (fst call) (snd call))).
Qed.

End CompressedRuns.

Lemma flow_table_updates_compressed_witness :
  let self := mkGauge Sample.dp1 (mkConf "flow_table" "text" (Some "flows.gz") true) in
  let calls := [ (17, OFPFlowStatsReply.mk (JArray [JNumber 1]));
                 (18, OFPFlowStatsReply.mk (JArray [])) ] in
  let run := FlowTableLogger.updates Z Sample._rcv_time Sample.dumps Sample.gz
               self calls Sample.world0 in
  fst run = Ok tt
  /\ Sample.gunzip (contents (files (snd run)) "flows.gz")
     = Some ("" +:+ concat_texts
                      [ FlowTableLogger.outstr Z Sample._rcv_time Sample.dumps self 17
                          (OFPFlowStatsReply.mk (JArray [JNumber 1]));
                        FlowTableLogger.outstr Z Sample._rcv_time Sample.dumps self 18
                          (OFPFlowStatsReply.mk (JArray [])) ]).
Proof.
  intros self calls run.
  exact (flow_table_updates_compressed Z Sample._rcv_time Sample.dumps Sample.gz
           Sample.gunzip sample_gunzip_member calls self "flows.gz" "" Sample.world0
           eq_refl ltac:(discriminate) ltac:(apply not_elem_of_empty) eq_refl eq_refl).
Defined.

(** ** Port-State Sink: a run of updates *)

Section PortStateRuns.

Variable rcv_time_t : Type.
Variable _rcv_time : rcv_time_t -> string.
Variable dpid_log : Z -> string.

Local Abbreviation port_state_update :=
  (PortStateLogger._update rcv_time_t _rcv_time dpid_log).
Local Abbreviation port_state_updates :=
  (PortStateLogger.updates rcv_time_t _rcv_time dpid_log).

(** The record a call logs and the line it writes. *)
Local Abbreviation record self call :=
  (INFO, dpid_log (dp_id (dp self)) +:+ " " +:+ PortStateLogger.render (snd call)).
Local Abbreviation line self call :=
  (_rcv_time (fst call) +:+ TAB +:+ dpid_log (dp_id (dp self)) +:+ " "
   +:+ PortStateLogger.render (snd call) +:+ LF).



End PortStateRuns.

